(** * LongLife Nutri Search API: the catalog store of [main.py]

    A shallow embedding of the three request handlers of [main.py]
    ([search_products], [get_product], [get_categories]) over the module
    global [MOCK_PRODUCTS], and the properties of the catalog store stated
    in the specification. *)

From Stdlib Require Import List ZArith NArith Bool Lia.
From Stdlib Require Import Strings.String Strings.Ascii Strings.Byte.
From Stdlib Require Import Permutation.
From Stdlib Require Import Floats.PrimFloat.
Import ListNotations.

(* Decimal float literals are rounded to the nearest binary64 value, as
   Python reads them. *)
Set Warnings "-inexact-float,-register-all".

Local Open Scope string_scope.
Local Open Scope list_scope.
Local Open Scope Z_scope.

(** ** Python text

    A Python [str] is a sequence of Unicode code points. *)

Definition codepoint := N.
Definition str := list codepoint.

(** Source text is UTF-8; [utf8_decode] turns the bytes of a literal into
    the code points Python sees. *)
Definition cont (b : N) : N := N.land b 63.

Fixpoint utf8_decode (bs : list N) : str :=
  match bs with
  | [] => []
  | b :: t =>
      if (b <? 128)%N then b :: utf8_decode t
      else if (b <? 224)%N then
        match t with
        | c1 :: t1 =>
            N.lor (N.shiftl (N.land b 31) 6) (cont c1) :: utf8_decode t1
        | [] => [b]
        end
      else if (b <? 240)%N then
        match t with
        | c1 :: c2 :: t2 =>
            N.lor (N.shiftl (N.land b 15) 12)
                  (N.lor (N.shiftl (cont c1) 6) (cont c2)) :: utf8_decode t2
        | _ => [b]
        end
      else
        match t with
        | c1 :: c2 :: c3 :: t3 =>
            N.lor (N.shiftl (N.land b 7) 18)
                  (N.lor (N.shiftl (cont c1) 12)
                         (N.lor (N.shiftl (cont c2) 6) (cont c3)))
              :: utf8_decode t3
        | _ => [b]
        end
  end.

(** [u "text"] is the Python string written ["text"] in the source. *)
Definition u (s : string) : str :=
  utf8_decode (map Byte.to_N (list_byte_of_string s)).

(** [str.lower()] on the code points below U+0100: the upper-case letters
    are A-Z, U+00C0-U+00D6 and U+00D8-U+00DE, and each has its lower-case
    form 32 places further. *)
Definition lower_latin1 (c : codepoint) : codepoint :=
  if ((65 <=? c) && (c <=? 90))%N then (c + 32)%N
  else if ((192 <=? c) && (c <=? 222) && negb (c =? 215))%N then (c + 32)%N
  else c.

Definition is_latin1 (s : str) : bool := forallb (fun c => (c <? 256)%N) s.

(** [str_eqb a b] is [a == b] on strings. *)
Fixpoint str_eqb (a b : str) : bool :=
  match a, b with
  | [], [] => true
  | x :: a', y :: b' => (x =? y)%N && str_eqb a' b'
  | _, _ => false
  end.

(** [startswith sub s]: [sub] is a prefix of [s]. *)
Fixpoint startswith (sub s : str) : bool :=
  match sub, s with
  | [], _ => true
  | x :: sub', y :: s' => (x =? y)%N && startswith sub' s'
  | _ :: _, [] => false
  end.

(** [contains sub s] is the Python test [sub in s] on strings: [sub] occurs
    in [s] at some offset. *)
Fixpoint contains (sub s : str) : bool :=
  startswith sub s ||
  match s with
  | [] => false
  | _ :: s' => contains sub s'
  end.

(** A Python [set] of strings, kept in insertion order of first
    occurrences; [py_set l] is [set(l)]. *)
Definition set_add (s : list str) (x : str) : list str :=
  if existsb (str_eqb x) s then s else s ++ [x].

Definition py_set (l : list str) : list str := fold_left set_add l [].

(** What the handlers take from the Python runtime.  [str_lower] is
    [str.lower()], whose full Unicode case table is not part of the
    program; on code points below U+0100 it is [lower_latin1].
    [set_iter s] is the order in which the elements of the set [s] are
    iterated; it depends on the hashes of the elements and is some
    rearrangement of them. *)
Class PyRuntime := {
  str_lower : str -> str;
  str_lower_latin1 :
    forall s, is_latin1 s = true -> str_lower s = map lower_latin1 s;
  set_iter : list str -> list str;
  set_iter_perm : forall s, Permutation (set_iter s) s
}.

(** Two runtimes: both treat code points from U+0100 on as caseless; the
    first iterates a set in insertion order, the second in reverse. *)
Definition runtime_fifo : PyRuntime := {|
  str_lower := map lower_latin1;
  str_lower_latin1 := fun s _ => eq_refl;
  set_iter := fun s => s;
  set_iter_perm := fun s => Permutation_refl s
|}.

Definition runtime_lifo : PyRuntime := {|
  str_lower := map lower_latin1;
  str_lower_latin1 := fun s _ => eq_refl;
  set_iter := @rev str;
  set_iter_perm := fun s => Permutation_sym (Permutation_rev s)
|}.

(** ** Products

    Every element of [MOCK_PRODUCTS] is a dict literal with the same eight
    keys; it is modelled as a record with one field per key.  [id] and
    [reviews] are Python ints, [price] and [rating] are Python floats
    (binary64). *)
Record Product := mkProduct {
  id : Z;
  name : str;
  description : str;
  price : float;
  category : str;
  image : str;
  rating : float;
  reviews : Z
}.

Definition MOCK_PRODUCTS : list Product := [
  {| id := 1;
     name := u "Whey Protein Premium";
     description := u "Proteína de alta qualidade para ganho de massa muscular";
     price := 89.99;
     category := u "Proteínas";
     image := u "https://via.placeholder.com/300x200/4CAF50/white?text=Whey+Protein";
     rating := 4.8;
     reviews := 245 |};
  {| id := 2;
     name := u "BCAA 2:1:1";
     description := u "Aminoácidos essenciais para recuperação muscular";
     price := 45.99;
     category := u "Aminoácidos";
     image := u "https://via.placeholder.com/300x200/2196F3/white?text=BCAA";
     rating := 4.6;
     reviews := 189 |};
  {| id := 3;
     name := u "Creatina Monohidratada";
     description := u "Suplemento para força e resistência muscular";
     price := 35.99;
     category := u "Creatina";
     image := u "https://via.placeholder.com/300x200/FF9800/white?text=Creatina";
     rating := 4.9;
     reviews := 312 |};
  {| id := 4;
     name := u "Multivitamínico Premium";
     description := u "Complexo vitamínico completo para saúde geral";
     price := 55.99;
     category := u "Vitaminas";
     image := u "https://via.placeholder.com/300x200/9C27B0/white?text=Vitaminas";
     rating := 4.7;
     reviews := 156 |};
  {| id := 5;
     name := u "Ômega 3 Ultra";
     description := u "Ácidos graxos essenciais para saúde cardiovascular";
     price := 42.99;
     category := u "Ômegas";
     image := u "https://via.placeholder.com/300x200/00BCD4/white?text=Omega+3";
     rating := 4.5;
     reviews := 98 |};
  {| id := 6;
     name := u "Notebook Gamer Alto Desempenho";
     description := u "Notebook para jogos e trabalho pesado";
     price := 2899.99;
     category := u "Eletrônicos";
     image := u "https://via.placeholder.com/300x200/607D8B/white?text=Notebook";
     rating := 4.4;
     reviews := 67 |}
]%float.

(** ** Responses

    A handler returns a dict literal; its values are booleans, ints,
    strings, products and lists of these. *)
Inductive value :=
| VBool (b : bool)
| VInt (n : Z)
| VStr (s : str)
| VProduct (p : Product)
| VList (l : list value).

Definition dict := list (string * value).

Fixpoint dict_get (key : string) (d : dict) : option value :=
  match d with
  | [] => None
  | (k, v) :: d' => if String.eqb k key then Some v else dict_get key d'
  end.

(** ** Module state

    The handlers read the module global [MOCK_PRODUCTS]; a handler is a
    function from the module's globals to its result and the globals it
    leaves behind. *)
Record globals := { g_MOCK_PRODUCTS : list Product }.

Definition module_globals : globals := {| g_MOCK_PRODUCTS := MOCK_PRODUCTS |}.

Definition Handler (A : Type) := globals -> A * globals.

Definition ret {A} (a : A) : Handler A := fun g => (a, g).

Definition bind {A B} (m : Handler A) (k : A -> Handler B) : Handler B :=
  fun g => let (a, g') := m g in k a g'.

Definition load_MOCK_PRODUCTS : Handler (list Product) :=
  fun g => (g_MOCK_PRODUCTS g, g).

Notation "x <- m ;; k" := (bind m (fun x => k))
  (at level 61, m at next level, right associativity).

Definition run {A} (m : Handler A) (g : globals) : A * globals := m g.
Definition eval {A} (m : Handler A) (g : globals) : A := fst (m g).

(** ** The handlers *)

(** [GET /search]. [query] is [None] when the parameter is absent. *)
Definition search_products `{PyRuntime} (query : option str) : Handler dict :=
  match query with
  | None | Some [] =>                                  (* if not query: *)
      ret [("success", VBool false);
           ("message", VStr (u "Query parameter is required"));
           ("products", VList [])]
  | Some query =>
      let query_lower := str_lower query in
      products <- load_MOCK_PRODUCTS ;;
      let filtered_products :=
        fold_left
          (fun filtered_products product =>
             if contains query_lower (str_lower (name product))
                || contains query_lower (str_lower (description product))
                || contains query_lower (str_lower (category product))
             then filtered_products ++ [product]
             else filtered_products)
          products [] in
      ret [("success", VBool true);
           ("query", VStr query);
           ("total", VInt (Z.of_nat (List.length filtered_products)));
           ("products", VList (map VProduct filtered_products))]
  end.

(** [GET /products/{product_id}].  [next(generator, None)] is the first
    product with the given id, or [None]; a product dict has eight keys and
    is never falsy, so [not product] holds exactly for [None]. *)
Definition get_product (product_id : Z) : Handler dict :=
  products <- load_MOCK_PRODUCTS ;;
  let product := find (fun p => id p =? product_id) products in
  match product with
  | None =>
      ret [("success", VBool false);
           ("message", VStr (u "Product not found"))]
  | Some product =>
      ret [("success", VBool true); ("product", VProduct product)]
  end.

(** [GET /categories]. *)
Definition get_categories `{PyRuntime} : Handler dict :=
  products <- load_MOCK_PRODUCTS ;;
  let categories := set_iter (py_set (map category products)) in
  ret [("success", VBool true);
       ("categories", VList (map VStr categories))].

(** [GET /]. *)
Definition root : Handler dict :=
  ret [("message", VStr (u "LongLife Nutri Search API"));
       ("status", VStr (u "running"))].

(** [GET /health]. *)
Definition health : Handler dict :=
  ret [("status", VStr (u "healthy"));
       ("message", VStr (u "API is running"))].

(** A catalog that breaks the uniqueness of ids: the six products of
    [MOCK_PRODUCTS], every one relabelled with the id 3. *)
Definition relabel (n : Z) (P : Product) : Product :=
  {| id := n; name := name P; description := description P;
     price := price P; category := category P; image := image P;
     rating := rating P; reviews := reviews P |}.

Definition same_id_globals : globals :=
  {| g_MOCK_PRODUCTS := map (relabel 3) MOCK_PRODUCTS |}.

(** ** Specification vocabulary *)

(** The test of the loop body of [search_products]. *)
Definition loop_test `{PyRuntime} (query : str) (product : Product) : bool :=
  contains (str_lower query) (str_lower (name product))
  || contains (str_lower query) (str_lower (description product))
  || contains (str_lower query) (str_lower (category product)).

(** The three searched fields of a product hold code points below U+0100
    only. *)
Definition product_latin1 (P : Product) : bool :=
  is_latin1 (name P) && is_latin1 (description P) && is_latin1 (category P).



(** [Substring a b]: [a] occurs in [b]. *)
Definition Substring (a b : str) : Prop := exists l r, b = l ++ a ++ r.

(** [Matches q P]: the lower-cased query occurs in the lower-cased name,
    description or category of [P]. *)
Definition Matches `{PyRuntime} (q : str) (P : Product) : Prop :=
  Substring (str_lower q) (str_lower (name P)) \/
  Substring (str_lower q) (str_lower (description P)) \/
  Substring (str_lower q) (str_lower (category P)).

(** [Selected M l ms]: [ms] is the subsequence of [l], in the order of [l],
    of exactly the elements that satisfy [M]. *)
Inductive Selected {A} (M : A -> Prop) : list A -> list A -> Prop :=
| Selected_nil : Selected M [] []
| Selected_keep x l ms : M x -> Selected M l ms -> Selected M (x :: l) (x :: ms)
| Selected_skip x l ms : ~ M x -> Selected M l ms -> Selected M (x :: l) ms.

(** The data-model invariants of one product record. *)
Definition product_ok (P : Product) : Prop :=
  0 < id P /\ name P <> [] /\ category P <> [] /\
  PrimFloat.leb 0 (price P) = true /\
  PrimFloat.leb 0 (rating P) = true /\ PrimFloat.leb (rating P) 5 = true /\
  0 <= reviews P.


(** ** Strings *)

Example u_omegas : u "Ômegas" = [212; 109; 101; 103; 97; 115]%N.
Proof. reflexivity. Qed.

Example lower_omegas :
  map lower_latin1 (u "Ômegas ÁCIDOS") = u "ômegas ácidos".
Proof. reflexivity. Qed.

Lemma str_eqb_eq (a b : str) : str_eqb a b = true <-> a = b.
Proof.
  revert b; induction a as [|x a IH]; intros [|y b]; simpl;
    try (split; [discriminate | discriminate]); try tauto.
  rewrite andb_true_iff, N.eqb_eq, IH.
  split; [intros [-> ->]; reflexivity | intros E; injection E; auto].
Qed.

Lemma startswith_prefix (sub s : str) :
  startswith sub s = true <-> exists r, s = sub ++ r.
Proof.
  revert s; induction sub as [|x sub IH]; intros s; simpl.
  - split; [intros _; exists s; reflexivity | reflexivity].
  - destruct s as [|y s].
    + split; [discriminate | intros [r E]; discriminate E].
    + rewrite andb_true_iff, N.eqb_eq, IH. split.
      * intros [-> [r ->]]. exists r. reflexivity.
      * intros [r E]. injection E as -> ->. split; [reflexivity | exists r; reflexivity].
Qed.

Lemma contains_Substring (sub s : str) :
  contains sub s = true <-> Substring sub s.
Proof.
  unfold Substring. induction s as [|y s IH].
  - simpl. rewrite orb_false_r, startswith_prefix. split.
    + intros [r E]. exists [], r. exact E.
    + intros [l [r E]]. destruct l as [|z l]; [exists r; exact E | discriminate E].
  - cbn [contains]. rewrite orb_true_iff, startswith_prefix, IH. split.
    + intros [[r E] | [l [r E]]].
      * exists [], r. exact E.
      * exists (y :: l), r. rewrite E. reflexivity.
    + intros [[|z l] [r E]].
      * left. exists r. exact E.
      * right. injection E as _ E. exists l, r. exact E.
Qed.

(** ** The search loop *)

Section Loop.
Context {A : Type} (test : A -> bool).

(** The loop appends the elements that pass the test, in order, to what
    has been collected so far. *)
Lemma loop_filter (l acc : list A) :
  fold_left (fun acc x => if test x then acc ++ [x] else acc) l acc
  = acc ++ filter test l.
Proof.
  revert acc; induction l as [|x l IH]; intros acc; simpl.
  - symmetry. apply app_nil_r.
  - rewrite IH. destruct (test x); [| reflexivity].
    rewrite <- app_assoc. reflexivity.
Qed.

Lemma filter_Selected (M : A -> Prop) (l : list A) :
  (forall x, In x l -> (test x = true <-> M x)) ->
  Selected M l (filter test l).
Proof.
  induction l as [|x l IH]; intros HM; simpl.
  - constructor.
  - assert (Hl : Selected M l (filter test l))
      by (apply IH; intros y Hy; apply HM; right; exact Hy).
    destruct (test x) eqn:Hx.
    + apply Selected_keep; [apply HM; [left; reflexivity | exact Hx] | exact Hl].
    + apply Selected_skip; [| exact Hl].
      intros Mx. apply HM in Mx; [congruence | left; reflexivity].
Qed.
End Loop.

(** [Selected] determines its result. *)
Lemma Selected_unique {A} (M : A -> Prop) (l ms ms' : list A) :
  Selected M l ms -> Selected M l ms' -> ms = ms'.
Proof.
  intros H; revert ms'; induction H; intros ms' H'; inversion H'; subst;
    try reflexivity; try contradiction; auto.
  f_equal. auto.
Qed.

Lemma loop_test_Matches `{PyRuntime} (q : str) (P : Product) :
  loop_test q P = true <-> Matches q P.
Proof.
  unfold loop_test, Matches.
  rewrite !orb_true_iff, !contains_Substring. tauto.
Qed.

(** With a non-empty query the handler returns the success dict built from
    the filtered catalog, and leaves the globals as they were. *)
Lemma search_products_run `{PyRuntime} (q : str) (g : globals) :
  q <> [] ->
  run (search_products (Some q)) g =
    ([("success", VBool true);
      ("query", VStr q);
      ("total", VInt (Z.of_nat (List.length (filter (loop_test q) (g_MOCK_PRODUCTS g)))));
      ("products", VList (map VProduct (filter (loop_test q) (g_MOCK_PRODUCTS g))))],
     g).
Proof.
  intros Hq. destruct q as [|c q]; [contradiction |].
  unfold run, search_products, bind, load_MOCK_PRODUCTS, ret.
  pose proof (loop_filter (loop_test (c :: q)) (g_MOCK_PRODUCTS g) []) as E.
  simpl app in E. rewrite <- E. reflexivity.
Qed.

(** On text below U+0100 every runtime lower-cases alike, so the loop test
    can be evaluated. *)
Lemma loop_test_latin1 (R : PyRuntime) (q : str) (P : Product) :
  is_latin1 q = true -> product_latin1 P = true ->
  @loop_test R q P = @loop_test runtime_fifo q P.
Proof.
  unfold product_latin1, loop_test. rewrite !andb_true_iff.
  intros Hq [[Hn Hd] Hc].
  rewrite !str_lower_latin1 by assumption. reflexivity.
Qed.

Lemma filter_latin1 (R : PyRuntime) (q : str) (l : list Product) :
  is_latin1 q = true -> forallb product_latin1 l = true ->
  filter (@loop_test R q) l = filter (@loop_test runtime_fifo q) l.
Proof.
  intros Hq Hl. apply filter_ext_in. intros P HP.
  apply loop_test_latin1; [exact Hq |].
  rewrite forallb_forall in Hl. apply Hl, HP.
Qed.

Lemma MOCK_PRODUCTS_latin1 : forallb product_latin1 MOCK_PRODUCTS = true.
Proof. vm_compute. reflexivity. Qed.

Lemma search_products_Selected `{PyRuntime} (q : str) (g : globals) :
  q <> [] ->
  exists ms,
    Selected (Matches q) (g_MOCK_PRODUCTS g) ms /\
    run (search_products (Some q)) g =
      ([("success", VBool true);
        ("query", VStr q);
        ("total", VInt (Z.of_nat (List.length ms)));
        ("products", VList (map VProduct ms))],
       g).
Proof.
  intros Hq. exists (filter (loop_test q) (g_MOCK_PRODUCTS g)). split.
  - apply filter_Selected. intros P _. apply loop_test_Matches.
  - apply search_products_run, Hq.
Qed.

(** ** Lookup by id *)

Lemma find_absent (l : list Product) (n : Z) :
  (forall P, In P l -> id P <> n) -> find (fun p => id p =? n) l = None.
Proof.
  induction l as [|x l IH]; intros H; simpl; [reflexivity |].
  destruct (Z.eqb_spec (id x) n) as [E | _].
  - exfalso. apply (H x); [left; reflexivity | exact E].
  - apply IH. intros P HP. apply H. right. exact HP.
Qed.

Lemma find_present (l : list Product) (P : Product) :
  NoDup (map id l) -> In P l -> find (fun p => id p =? id P) l = Some P.
Proof.
  induction l as [|x l IH]; intros Hnd HP; simpl; [contradiction |].
  inversion Hnd as [|? ? Hx Hl]; subst.
  destruct HP as [-> | HP].
  - rewrite Z.eqb_refl. reflexivity.
  - destruct (Z.eqb_spec (id x) (id P)) as [E | _].
    + exfalso. apply Hx. rewrite E. apply in_map, HP.
    + apply IH; assumption.
Qed.

Lemma MOCK_PRODUCTS_ids : map id MOCK_PRODUCTS = [1; 2; 3; 4; 5; 6].
Proof. reflexivity. Qed.

Lemma MOCK_PRODUCTS_ids_NoDup : NoDup (map id MOCK_PRODUCTS).
Proof.
  rewrite MOCK_PRODUCTS_ids.
  repeat (constructor; [simpl; intuition discriminate |]). constructor.
Qed.

(** ** Sets of categories *)

Lemma set_add_In (s : list str) (x y : str) :
  In y (set_add s x) <-> In y s \/ y = x.
Proof.
  unfold set_add. destruct (existsb (str_eqb x) s) eqn:E.
  - split; [auto |]. intros [H | ->]; [exact H |].
    apply existsb_exists in E. destruct E as [z [Hz Ez]].
    apply str_eqb_eq in Ez. subst z. exact Hz.
  - rewrite in_app_iff. simpl. intuition congruence.
Qed.

Lemma set_add_NoDup (s : list str) (x : str) :
  NoDup s -> NoDup (set_add s x).
Proof.
  intros Hs. unfold set_add. destruct (existsb (str_eqb x) s) eqn:E; [exact Hs |].
  apply NoDup_app; [exact Hs | repeat constructor; intros [] | ].
  intros y Hy [<- | []].
  assert (existsb (str_eqb x) s = true); [| congruence].
  apply existsb_exists. exists x. split; [exact Hy | apply str_eqb_eq; reflexivity].
Qed.

Lemma fold_set_add_In (l s : list str) (y : str) :
  In y (fold_left set_add l s) <-> In y s \/ In y l.
Proof.
  revert s; induction l as [|x l IH]; intros s; simpl.
  - tauto.
  - rewrite IH, set_add_In. intuition congruence.
Qed.

Lemma fold_set_add_NoDup (l s : list str) :
  NoDup s -> NoDup (fold_left set_add l s).
Proof.
  revert s; induction l as [|x l IH]; intros s Hs; simpl; [exact Hs |].
  apply IH, set_add_NoDup, Hs.
Qed.

Lemma py_set_In (l : list str) (y : str) : In y (py_set l) <-> In y l.
Proof. unfold py_set. rewrite fold_set_add_In. simpl. tauto. Qed.

Lemma py_set_NoDup (l : list str) : NoDup (py_set l).
Proof. apply fold_set_add_NoDup. constructor. Qed.

(** ** Search *)

(** C1: for every non-empty query [q], [search_products(q)] returns
    [success] true, echoes [q], and its [products] are exactly the products
    of the catalog, in catalog order, for which [q] lower-cased occurs in
    the lower-cased name, description or category; [total] is their
    number. *)
Theorem search_products_selects `{PyRuntime} (q : str) :
  q <> [] ->
  exists ms,
    Selected (Matches q) MOCK_PRODUCTS ms /\
    eval (search_products (Some q)) module_globals =
      [("success", VBool true);
       ("query", VStr q);
       ("total", VInt (Z.of_nat (List.length ms)));
       ("products", VList (map VProduct ms))].
Proof.
  intros Hq.
  destruct (search_products_Selected q module_globals Hq) as [ms [Hsel Hrun]].
  exists ms. split; [exact Hsel |].
  unfold eval. unfold run in Hrun. rewrite Hrun. reflexivity.
Qed.

Lemma search_products_selects_witness :
  exists ms,
    Selected (@Matches runtime_fifo (u "vitam")) MOCK_PRODUCTS ms /\
    eval (@search_products runtime_fifo (Some (u "vitam"))) module_globals =
      [("success", VBool true);
       ("query", VStr (u "vitam"));
       ("total", VInt (Z.of_nat (List.length ms)));
       ("products", VList (map VProduct ms))].
Proof.
  apply (@search_products_selects runtime_fifo (u "vitam")).
  vm_compute. discriminate.
Defined.

(** C3: with the query absent ([None]) or empty, [search_products] returns
    the dict with [success] false, a message and an empty [products] list;
    it is the value the handler returns, and the catalog is untouched. *)
Theorem search_products_missing_query `{PyRuntime} (g : globals) :
  run (search_products None) g =
    ([("success", VBool false);
      ("message", VStr (u "Query parameter is required"));
      ("products", VList [])], g) /\
  run (search_products (Some (u ""))) g =
    ([("success", VBool false);
      ("message", VStr (u "Query parameter is required"));
      ("products", VList [])], g).
Proof. split; reflexivity. Qed.

(** C7: two non-empty queries with the same lower-casing give the same
    [products] and the same [total]; only the echoed [query] differs. *)
Theorem search_products_case_insensitive `{PyRuntime} (q q' : str) :
  q <> [] -> q' <> [] -> str_lower q = str_lower q' ->
  exists ms,
    eval (search_products (Some q)) module_globals =
      [("success", VBool true);
       ("query", VStr q);
       ("total", VInt (Z.of_nat (List.length ms)));
       ("products", VList (map VProduct ms))] /\
    eval (search_products (Some q')) module_globals =
      [("success", VBool true);
       ("query", VStr q');
       ("total", VInt (Z.of_nat (List.length ms)));
       ("products", VList (map VProduct ms))].
Proof.
  intros Hq Hq' E.
  exists (filter (loop_test q) MOCK_PRODUCTS).
  unfold eval.
  pose proof (search_products_run q module_globals Hq) as R1.
  pose proof (search_products_run q' module_globals Hq') as R2.
  assert (F : filter (loop_test q') MOCK_PRODUCTS = filter (loop_test q) MOCK_PRODUCTS).
  { apply filter_ext. intros P. unfold loop_test. rewrite E. reflexivity. }
  change (g_MOCK_PRODUCTS module_globals) with MOCK_PRODUCTS in R1, R2.
  rewrite F in R2.
  unfold run in R1, R2. rewrite R1, R2.
  split; reflexivity.
Qed.

Lemma search_products_case_insensitive_witness :
  exists ms,
    eval (@search_products runtime_fifo (Some (u "CREATINA"))) module_globals =
      [("success", VBool true);
       ("query", VStr (u "CREATINA"));
       ("total", VInt (Z.of_nat (List.length ms)));
       ("products", VList (map VProduct ms))] /\
    eval (@search_products runtime_fifo (Some (u "Creatina"))) module_globals =
      [("success", VBool true);
       ("query", VStr (u "Creatina"));
       ("total", VInt (Z.of_nat (List.length ms)));
       ("products", VList (map VProduct ms))].
Proof.
  apply (@search_products_case_insensitive runtime_fifo
           (u "CREATINA") (u "Creatina")).
  - vm_compute. discriminate.
  - vm_compute. discriminate.
  - vm_compute. reflexivity.
Defined.

(** C8: for every query value, [None] included, a call of
    [search_products] leaves the module's globals as they were, and a
    second call returns the same result as the first. *)
Theorem search_products_idempotent `{PyRuntime} (query : option str) (g : globals) :
  snd (run (search_products query) g) = g /\
  fst (run (search_products query) (snd (run (search_products query) g)))
  = fst (run (search_products query) g).
Proof.
  assert (S : snd (run (search_products query) g) = g).
  { destruct query as [[|c q]|]; reflexivity. }
  split; [exact S |]. rewrite S. reflexivity.
Qed.

(** Over the reference catalog and a query below U+0100, the answer of
    any runtime is the one computed with [runtime_fifo]. *)
Lemma search_products_latin1 (R : PyRuntime) (q : str) :
  q <> [] -> is_latin1 q = true ->
  eval (@search_products R (Some q)) module_globals =
  eval (@search_products runtime_fifo (Some q)) module_globals.
Proof.
  intros Hq Hl. unfold eval.
  pose proof (@search_products_run R q module_globals Hq) as R1.
  pose proof (@search_products_run runtime_fifo q module_globals Hq) as R2.
  unfold run in R1, R2. rewrite R1, R2.
  change (g_MOCK_PRODUCTS module_globals) with MOCK_PRODUCTS.
  rewrite (filter_latin1 R q MOCK_PRODUCTS Hl MOCK_PRODUCTS_latin1).
  reflexivity.
Qed.

Lemma Substring_latin1 (R : PyRuntime) (a b : str) :
  is_latin1 a = true -> is_latin1 b = true ->
  contains (map lower_latin1 a) (map lower_latin1 b) = true ->
  Substring (str_lower a) (str_lower b).
Proof.
  intros Ha Hb H. rewrite !str_lower_latin1 by assumption.
  apply contains_Substring, H.
Qed.

(** C6: over the reference catalog, [search_products("protein")] returns
    exactly the "Whey Protein Premium" product with [total] 1, the query
    occurring in its name, and [search_products("proteína")] returns that
    same single product with [total] 1, the query occurring in its
    description. *)
Theorem search_products_protein `{PyRuntime} :
  exists whey,
    nth_error MOCK_PRODUCTS 0 = Some whey /\
    name whey = u "Whey Protein Premium" /\
    eval (search_products (Some (u "protein"))) module_globals =
      [("success", VBool true);
       ("query", VStr (u "protein"));
       ("total", VInt 1);
       ("products", VList [VProduct whey])] /\
    Substring (str_lower (u "protein")) (str_lower (name whey)) /\
    eval (search_products (Some (u "proteína"))) module_globals =
      [("success", VBool true);
       ("query", VStr (u "proteína"));
       ("total", VInt 1);
       ("products", VList [VProduct whey])] /\
    Substring (str_lower (u "proteína")) (str_lower (description whey)).
Proof.
  eexists. split; [reflexivity |]. split; [reflexivity |].
  repeat split.
  - rewrite search_products_latin1; [| vm_compute; discriminate | reflexivity].
    vm_compute. reflexivity.
  - apply Substring_latin1; vm_compute; reflexivity.
  - rewrite search_products_latin1; [| vm_compute; discriminate | reflexivity].
    vm_compute. reflexivity.
  - apply Substring_latin1; vm_compute; reflexivity.
Qed.

(** C10: the query is never trimmed.  Every non-empty query, a blank one
    included, takes the success branch: the result has [success] true,
    echoes the query as given and holds the products that the query
    itself matches.  Over the reference catalog [search_products(" ")]
    returns all six products, each name containing a space. *)
Theorem search_products_whitespace `{PyRuntime} :
  (forall q : str, q <> [] ->
     exists ms,
       Selected (Matches q) MOCK_PRODUCTS ms /\
       eval (search_products (Some q)) module_globals =
         [("success", VBool true);
          ("query", VStr q);
          ("total", VInt (Z.of_nat (List.length ms)));
          ("products", VList (map VProduct ms))]) /\
  eval (search_products (Some (u " "))) module_globals =
    [("success", VBool true);
     ("query", VStr (u " "));
     ("total", VInt 6);
     ("products", VList (map VProduct MOCK_PRODUCTS))] /\
  List.length MOCK_PRODUCTS = 6%nat /\
  (forall P, In P MOCK_PRODUCTS -> Substring (u " ") (name P)).
Proof.
  split; [| split; [| split]].
  - intros q Hq.
    destruct (search_products_Selected q module_globals Hq) as [ms [Hsel Hrun]].
    exists ms. split; [exact Hsel |].
    unfold eval. unfold run in Hrun. rewrite Hrun. reflexivity.
  - rewrite search_products_latin1; [| vm_compute; discriminate | reflexivity].
    vm_compute. reflexivity.
  - reflexivity.
  - intros P HP. apply contains_Substring.
    assert (F : forallb (fun P => contains (u " ") (name P)) MOCK_PRODUCTS = true)
      by (vm_compute; reflexivity).
    rewrite forallb_forall in F. apply F, HP.
Qed.

Lemma search_products_whitespace_witness :
  exists ms,
    Selected (@Matches runtime_fifo (u " ")) MOCK_PRODUCTS ms /\
    eval (@search_products runtime_fifo (Some (u " "))) module_globals =
      [("success", VBool true);
       ("query", VStr (u " "));
       ("total", VInt (Z.of_nat (List.length ms)));
       ("products", VList (map VProduct ms))].
Proof.
  apply (proj1 (@search_products_whitespace runtime_fifo) (u " ")).
  vm_compute. discriminate.
Defined.

(** ** Lookup and categories *)

(** C2: for every product [P] of the catalog, [get_product(P.id)] returns
    [success] true with [P] itself; [get_product(3)] returns [success]
    true with the "Creatina Monohidratada" product. *)
Theorem get_product_found :
  (forall P, In P MOCK_PRODUCTS ->
     eval (get_product (id P)) module_globals =
       [("success", VBool true); ("product", VProduct P)]) /\
  (exists P,
     In P MOCK_PRODUCTS /\ name P = u "Creatina Monohidratada" /\
     eval (get_product 3) module_globals =
       [("success", VBool true); ("product", VProduct P)]).
Proof.
  split.
  - intros P HP. unfold eval, get_product, bind, load_MOCK_PRODUCTS.
    change (g_MOCK_PRODUCTS module_globals) with MOCK_PRODUCTS.
    rewrite (find_present MOCK_PRODUCTS P MOCK_PRODUCTS_ids_NoDup HP).
    reflexivity.
  - eexists. split; [| split; [| vm_compute; reflexivity]].
    + right; right; left. reflexivity.
    + reflexivity.
Qed.

Lemma get_product_found_witness :
  exists P,
    nth_error MOCK_PRODUCTS 4 = Some P /\
    eval (get_product (id P)) module_globals =
      [("success", VBool true); ("product", VProduct P)].
Proof.
  eexists. split; [reflexivity |].
  apply (proj1 get_product_found).
  do 4 right. left. reflexivity.
Defined.

(** C4: for every integer that is the id of no product of the catalog,
    [get_product] returns the dict with [success] false and the message
    "Product not found" as its value; so it does for 999. *)
Theorem get_product_not_found :
  (forall product_id : Z,
     (forall P, In P MOCK_PRODUCTS -> id P <> product_id) ->
     run (get_product product_id) module_globals =
       ([("success", VBool false);
         ("message", VStr (u "Product not found"))], module_globals)) /\
  eval (get_product 999) module_globals =
    [("success", VBool false); ("message", VStr (u "Product not found"))].
Proof.
  split.
  - intros product_id H.
    unfold run, get_product, bind, load_MOCK_PRODUCTS.
    change (g_MOCK_PRODUCTS module_globals) with MOCK_PRODUCTS.
    rewrite (find_absent MOCK_PRODUCTS product_id H). reflexivity.
  - reflexivity.
Qed.

Lemma get_product_not_found_witness :
  run (get_product (-7)) module_globals =
    ([("success", VBool false);
      ("message", VStr (u "Product not found"))], module_globals).
Proof.
  apply (proj1 get_product_not_found (-7)).
  intros P HP.
  assert (F : forallb (fun P => negb (id P =? -7)) MOCK_PRODUCTS = true)
    by (vm_compute; reflexivity).
  rewrite forallb_forall in F. specialize (F P HP).
  apply negb_true_iff, Z.eqb_neq in F. exact F.
Defined.

(** C5: [get_categories] returns [success] true with a list of categories
    that has no duplicates and holds exactly the categories of the
    products; over the reference catalog it has six elements.  Its order
    is that of the runtime's set iteration: two runtimes can return the
    categories in different orders. *)
Theorem get_categories_distinct :
  (forall R : PyRuntime,
     exists cs,
       eval (@get_categories R) module_globals =
         [("success", VBool true); ("categories", VList (map VStr cs))] /\
       NoDup cs /\
       (forall c, In c cs <-> exists P, In P MOCK_PRODUCTS /\ category P = c) /\
       List.length cs = 6%nat) /\
  (exists R1 R2 : PyRuntime,
     eval (@get_categories R1) module_globals <>
     eval (@get_categories R2) module_globals).
Proof.
  split.
  - intros R. exists (set_iter (py_set (map category MOCK_PRODUCTS))).
    pose proof (set_iter_perm (py_set (map category MOCK_PRODUCTS))) as HP.
    split; [reflexivity |]. split; [| split].
    + apply (Permutation_NoDup (Permutation_sym HP)), py_set_NoDup.
    + intros c. split.
      * intros Hc. apply (Permutation_in _ HP) in Hc.
        apply py_set_In, in_map_iff in Hc.
        destruct Hc as [P [E HPin]]. exists P. split; assumption.
      * intros [P [HPin E]]. apply (Permutation_in _ (Permutation_sym HP)).
        apply py_set_In, in_map_iff. exists P. split; assumption.
    + rewrite (Permutation_length HP). vm_compute. reflexivity.
  - exists runtime_fifo, runtime_lifo. vm_compute. discriminate.
Qed.

(** ** The reference catalog *)

(** C9: every record of [MOCK_PRODUCTS] has a positive id, a non-empty
    name and category, a non-negative price, a rating between 0.0 and 5.0
    and a non-negative reviews count, and the ids are pairwise
    distinct. *)
Theorem MOCK_PRODUCTS_invariants :
  Forall product_ok MOCK_PRODUCTS /\ NoDup (map id MOCK_PRODUCTS).
Proof.
  split; [| exact MOCK_PRODUCTS_ids_NoDup].
  unfold MOCK_PRODUCTS.
  repeat (apply Forall_cons;
          [unfold product_ok; cbn [id name category price rating reviews];
           repeat split; try lia; try reflexivity;
           (vm_compute; discriminate) |]).
  apply Forall_nil.
Qed.

(** ** Further properties of the handlers, over any catalog *)

Lemma Substring_refl (a : str) : Substring a a.
Proof. exists [], []. simpl. symmetry. apply app_nil_r. Qed.

Lemma Substring_trans (a b c : str) :
  Substring a b -> Substring b c -> Substring a c.
Proof.
  intros [l [r ->]] [l' [r' ->]]. exists (l' ++ l), (r ++ r').
  rewrite <- !app_assoc. reflexivity.
Qed.

Lemma Matches_narrow `{PyRuntime} (q q' : str) (P : Product) :
  Substring (str_lower q') (str_lower q) -> Matches q P -> Matches q' P.
Proof.
  intros S [M | [M | M]]; [left | right; left | right; right];
    exact (Substring_trans _ _ _ S M).
Qed.

Lemma filter_narrow {A} (f g : A -> bool) (l : list A) :
  (forall x, f x = true -> g x = true) ->
  filter f (filter g l) = filter f l.
Proof.
  intros Hfg. induction l as [|x l IH]; simpl; [reflexivity |].
  destruct (g x) eqn:Gx; simpl.
  - rewrite IH. reflexivity.
  - destruct (f x) eqn:Fx; [| exact IH].
    apply Hfg in Fx. congruence.
Qed.

Lemma map_VProduct_inj (a b : list Product) :
  map VProduct a = map VProduct b -> a = b.
Proof.
  revert b; induction a as [|x a IH]; intros [|y b] E;
    try discriminate E; [reflexivity |].
  simpl in E. injection E as -> E. f_equal. apply IH, E.
Qed.

Lemma map_VStr_inj (a b : list str) : map VStr a = map VStr b -> a = b.
Proof.
  revert b; induction a as [|x a IH]; intros [|y b] E;
    try discriminate E; [reflexivity |].
  simpl in E. injection E as -> E. f_equal. apply IH, E.
Qed.

Lemma search_products_eval `{PyRuntime} (q : str) (g : globals) :
  q <> [] ->
  eval (search_products (Some q)) g =
    [("success", VBool true);
     ("query", VStr q);
     ("total", VInt (Z.of_nat (List.length (filter (loop_test q) (g_MOCK_PRODUCTS g)))));
     ("products", VList (map VProduct (filter (loop_test q) (g_MOCK_PRODUCTS g))))].
Proof.
  intros Hq. pose proof (search_products_run q g Hq) as E.
  unfold eval. unfold run in E. rewrite E. reflexivity.
Qed.

Lemma get_product_run (product_id : Z) (g : globals) :
  run (get_product product_id) g =
    (match find (fun p => id p =? product_id) (g_MOCK_PRODUCTS g) with
     | None => [("success", VBool false);
                ("message", VStr (u "Product not found"))]
     | Some product => [("success", VBool true); ("product", VProduct product)]
     end, g).
Proof.
  unfold run, get_product, bind, load_MOCK_PRODUCTS.
  destruct (find _ _); reflexivity.
Qed.

Lemma find_first (l1 l2 : list Product) (P : Product) :
  (forall P', In P' l1 -> id P' <> id P) ->
  find (fun p => id p =? id P) (l1 ++ P :: l2) = Some P.
Proof.
  induction l1 as [|x l1 IH]; intros H; simpl.
  - rewrite Z.eqb_refl. reflexivity.
  - destruct (Z.eqb_spec (id x) (id P)) as [E | _].
    + exfalso. apply (H x); [left; reflexivity | exact E].
    + apply IH. intros P' HP'. apply H. right. exact HP'.
Qed.

Lemma no_match_filter `{PyRuntime} (q : str) (l : list Product) :
  (forall P, In P l -> ~ Matches q P) -> filter (loop_test q) l = [].
Proof.
  induction l as [|x l IH]; intros H0; simpl; [reflexivity |].
  destruct (loop_test q x) eqn:E.
  - exfalso. apply (H0 x); [left; reflexivity | apply loop_test_Matches, E].
  - apply IH. intros P HP. apply H0. right. exact HP.
Qed.

(** X1: a non-empty query that no product matches is not an error: the
    handler returns [success] true with [total] 0 and an empty [products]
    list, whatever the catalog holds. *)
Theorem search_products_no_match `{PyRuntime} (q : str) (g : globals) :
  q <> [] ->
  (forall P, In P (g_MOCK_PRODUCTS g) -> ~ Matches q P) ->
  run (search_products (Some q)) g =
    ([("success", VBool true);
      ("query", VStr q);
      ("total", VInt 0);
      ("products", VList [])], g).
Proof.
  intros Hq Hno. rewrite (search_products_run q g Hq).
  rewrite (no_match_filter q _ Hno). reflexivity.
Qed.

Lemma search_products_no_match_witness :
  run (@search_products runtime_fifo (Some (u "xyz"))) module_globals =
    ([("success", VBool true);
      ("query", VStr (u "xyz"));
      ("total", VInt 0);
      ("products", VList [])], module_globals).
Proof.
  apply (@search_products_no_match runtime_fifo (u "xyz") module_globals).
  - vm_compute. discriminate.
  - intros P HP M. apply (@loop_test_Matches runtime_fifo) in M.
    assert (F : forallb (fun P => negb (@loop_test runtime_fifo (u "xyz") P))
                        MOCK_PRODUCTS = true) by (vm_compute; reflexivity).
    rewrite forallb_forall in F. specialize (F P HP).
    rewrite M in F. discriminate F.
Defined.

(** X2: narrowing a query narrows the result.  When the lower-cased [q']
    occurs in the lower-cased [q], the products found for [q] are exactly
    those of the products found for [q'] that match [q], in the same
    order. *)
Theorem search_products_narrowing `{PyRuntime} (q q' : str) (g : globals) :
  q <> [] -> q' <> [] ->
  Substring (str_lower q') (str_lower q) ->
  exists ms ms',
    eval (search_products (Some q')) g =
      [("success", VBool true);
       ("query", VStr q');
       ("total", VInt (Z.of_nat (List.length ms')));
       ("products", VList (map VProduct ms'))] /\
    eval (search_products (Some q)) g =
      [("success", VBool true);
       ("query", VStr q);
       ("total", VInt (Z.of_nat (List.length ms)));
       ("products", VList (map VProduct ms))] /\
    Selected (Matches q) ms' ms.
Proof.
  intros Hq Hq' S.
  exists (filter (loop_test q) (g_MOCK_PRODUCTS g)),
         (filter (loop_test q') (g_MOCK_PRODUCTS g)).
  split; [apply search_products_eval, Hq' |].
  split; [apply search_products_eval, Hq |].
  rewrite <- (filter_narrow (loop_test q) (loop_test q')).
  - apply filter_Selected. intros P _. apply loop_test_Matches.
  - intros P HP. apply loop_test_Matches.
    apply (Matches_narrow q q' P S). apply loop_test_Matches, HP.
Qed.

Lemma search_products_narrowing_witness :
  exists ms ms',
    eval (@search_products runtime_fifo (Some (u "pre"))) module_globals =
      [("success", VBool true);
       ("query", VStr (u "pre"));
       ("total", VInt (Z.of_nat (List.length ms')));
       ("products", VList (map VProduct ms'))] /\
    eval (@search_products runtime_fifo (Some (u "Premium"))) module_globals =
      [("success", VBool true);
       ("query", VStr (u "Premium"));
       ("total", VInt (Z.of_nat (List.length ms)));
       ("products", VList (map VProduct ms))] /\
    Selected (@Matches runtime_fifo (u "Premium")) ms' ms.
Proof.
  apply (@search_products_narrowing runtime_fifo
           (u "Premium") (u "pre") module_globals).
  - vm_compute. discriminate.
  - vm_compute. discriminate.
  - apply contains_Substring. vm_compute. reflexivity.
Defined.

(** X3: [get_product] returns the first product of the catalog that has
    the requested id, also when later products share that id. *)
Theorem get_product_first_match (g : globals) (l1 l2 : list Product) (P : Product) :
  g_MOCK_PRODUCTS g = l1 ++ P :: l2 ->
  (forall P', In P' l1 -> id P' <> id P) ->
  run (get_product (id P)) g =
    ([("success", VBool true); ("product", VProduct P)], g).
Proof.
  intros E H. rewrite get_product_run, E, (find_first l1 l2 P H). reflexivity.
Qed.

Lemma get_product_first_match_witness :
  exists P,
    name P = u "Whey Protein Premium" /\
    run (get_product 3) same_id_globals =
      ([("success", VBool true); ("product", VProduct P)], same_id_globals).
Proof.
  set (P0 := relabel 3 (hd (mkProduct 0 [] [] 0 [] [] 0 0) MOCK_PRODUCTS)).
  exists P0. split; [reflexivity |].
  change (get_product 3) with (get_product (id P0)).
  apply (get_product_first_match same_id_globals []
           (map (relabel 3) (tl MOCK_PRODUCTS)) P0).
  - reflexivity.
  - intros P' [].
Defined.

(** X4: over any catalog, [get_product] either finds a product of the
    catalog that has the requested id and returns it with [success] true,
    or no product has that id and it returns the not-found dict; the
    globals are left as they were. *)
Theorem get_product_sound (product_id : Z) (g : globals) :
  (exists P,
     In P (g_MOCK_PRODUCTS g) /\ id P = product_id /\
     run (get_product product_id) g =
       ([("success", VBool true); ("product", VProduct P)], g)) \/
  ((forall P, In P (g_MOCK_PRODUCTS g) -> id P <> product_id) /\
   run (get_product product_id) g =
     ([("success", VBool false);
       ("message", VStr (u "Product not found"))], g)).
Proof.
  rewrite get_product_run.
  destruct (find (fun p => id p =? product_id) (g_MOCK_PRODUCTS g)) as [P|] eqn:F.
  - left. exists P. apply find_some in F. destruct F as [HP E].
    apply Z.eqb_eq in E. repeat split; assumption.
  - right. split; [| reflexivity].
    intros P HP E. pose proof (find_none _ _ F P HP) as N.
    simpl in N. apply Z.eqb_neq in N. contradiction.
Qed.

(** X5: over any catalog and for any set iteration order,
    [get_categories] returns [success] true with a duplicate-free list
    that holds exactly the categories of the products; it is never longer
    than the catalog, and the globals are left as they were. *)
Theorem get_categories_any_catalog `{PyRuntime} (g : globals) :
  exists cs,
    run get_categories g =
      ([("success", VBool true); ("categories", VList (map VStr cs))], g) /\
    NoDup cs /\
    (forall c, In c cs <->
               exists P, In P (g_MOCK_PRODUCTS g) /\ category P = c) /\
    (List.length cs <= List.length (g_MOCK_PRODUCTS g))%nat.
Proof.
  set (l := g_MOCK_PRODUCTS g).
  exists (set_iter (py_set (map category l))).
  pose proof (set_iter_perm (py_set (map category l))) as HP.
  assert (ND : NoDup (set_iter (py_set (map category l))))
    by (apply (Permutation_NoDup (Permutation_sym HP)), py_set_NoDup).
  assert (IN : forall c, In c (set_iter (py_set (map category l))) <->
                         In c (map category l)).
  { intros c. split; intros Hc.
    - apply py_set_In. apply (Permutation_in _ HP), Hc.
    - apply (Permutation_in _ (Permutation_sym HP)). apply py_set_In, Hc. }
  split; [reflexivity |]. split; [exact ND |]. split.
  - intros c. rewrite IN, in_map_iff. split.
    + intros [P [E HPin]]. exists P. split; assumption.
    + intros [P [HPin E]]. exists P. split; assumption.
  - rewrite <- (length_map category l).
    apply NoDup_incl_length; [exact ND |].
    intros c Hc. apply IN, Hc.
Qed.

(** X6: every product can be found by its own text: searching for the
    name, the description or the category of a product of the catalog,
    when that text is not empty, returns a result that contains the
    product. *)
Theorem search_products_finds_own_text `{PyRuntime}
    (g : globals) (P : Product) (q : str) :
  In P (g_MOCK_PRODUCTS g) ->
  q <> [] ->
  q = name P \/ q = description P \/ q = category P ->
  exists ms,
    eval (search_products (Some q)) g =
      [("success", VBool true);
       ("query", VStr q);
       ("total", VInt (Z.of_nat (List.length ms)));
       ("products", VList (map VProduct ms))] /\
    In P ms.
Proof.
  intros HP Hq Hf.
  exists (filter (loop_test q) (g_MOCK_PRODUCTS g)).
  split; [apply search_products_eval, Hq |].
  apply filter_In. split; [exact HP |].
  apply loop_test_Matches. unfold Matches.
  destruct Hf as [-> | [-> | ->]];
    [left | right; left | right; right]; apply Substring_refl.
Qed.

Lemma search_products_finds_own_text_witness :
  exists P ms,
    nth_error MOCK_PRODUCTS 5 = Some P /\
    eval (@search_products runtime_fifo (Some (description P))) module_globals =
      [("success", VBool true);
       ("query", VStr (description P));
       ("total", VInt (Z.of_nat (List.length ms)));
       ("products", VList (map VProduct ms))] /\
    In P ms.
Proof.
  set (P0 := nth 5 MOCK_PRODUCTS (mkProduct 0 [] [] 0 [] [] 0 0)).
  destruct (@search_products_finds_own_text runtime_fifo module_globals
              P0 (description P0)) as [ms [E I]].
  - do 5 right. left. reflexivity.
  - vm_compute. discriminate.
  - right. left. reflexivity.
  - exists P0, ms. split; [reflexivity |]. split; [exact E | exact I].
Defined.

(** X7: search results can be looked up.  When the ids of the catalog are
    pairwise distinct, every product in the [products] of a search result
    is returned by [get_product] called with its id. *)
Theorem search_then_get_product `{PyRuntime}
    (q : str) (g : globals) (ms : list Product) (P : Product) :
  NoDup (map id (g_MOCK_PRODUCTS g)) ->
  q <> [] ->
  dict_get "products" (eval (search_products (Some q)) g)
    = Some (VList (map VProduct ms)) ->
  In P ms ->
  run (get_product (id P)) g =
    ([("success", VBool true); ("product", VProduct P)], g).
Proof.
  intros ND Hq E HP.
  rewrite (search_products_eval q g Hq) in E. simpl in E.
  injection E as E. apply map_VProduct_inj in E. subst ms.
  apply filter_In in HP. destruct HP as [HP _].
  rewrite get_product_run, (find_present _ P ND HP). reflexivity.
Qed.

Lemma search_then_get_product_witness :
  exists P,
    name P = u "Multivitamínico Premium" /\
    run (get_product (id P)) module_globals =
      ([("success", VBool true); ("product", VProduct P)], module_globals).
Proof.
  set (P0 := nth 3 MOCK_PRODUCTS (mkProduct 0 [] [] 0 [] [] 0 0)).
  exists P0. split; [reflexivity |].
  apply (@search_then_get_product runtime_fifo (u "premium") module_globals
           (filter (@loop_test runtime_fifo (u "premium")) MOCK_PRODUCTS) P0).
  - exact MOCK_PRODUCTS_ids_NoDup.
  - vm_compute. discriminate.
  - rewrite search_products_eval by (vm_compute; discriminate). reflexivity.
  - apply filter_In. split.
    + do 3 right. left. reflexivity.
    + vm_compute. reflexivity.
Defined.

(** X8: every category that [get_categories] lists can be searched for:
    for a listed category that is not the empty string, [search_products]
    succeeds with a non-empty result that contains every product of that
    category. *)
Theorem categories_then_search `{PyRuntime}
    (g : globals) (cs : list str) (c : str) :
  dict_get "categories" (eval get_categories g) = Some (VList (map VStr cs)) ->
  In c cs ->
  c <> [] ->
  exists ms,
    eval (search_products (Some c)) g =
      [("success", VBool true);
       ("query", VStr c);
       ("total", VInt (Z.of_nat (List.length ms)));
       ("products", VList (map VProduct ms))] /\
    ms <> [] /\
    (forall P, In P (g_MOCK_PRODUCTS g) -> category P = c -> In P ms).
Proof.
  intros E Hc Hne.
  unfold eval, get_categories, bind, load_MOCK_PRODUCTS, ret in E. simpl in E.
  injection E as E. apply map_VStr_inj in E. subst cs.
  apply (Permutation_in _ (set_iter_perm _)) in Hc.
  apply py_set_In, in_map_iff in Hc. destruct Hc as [P0 [E0 HP0]].
  assert (Hall : forall P, In P (g_MOCK_PRODUCTS g) -> category P = c ->
                           In P (filter (loop_test c) (g_MOCK_PRODUCTS g))).
  { intros P HP EP. apply filter_In. split; [exact HP |].
    apply loop_test_Matches. right; right. rewrite EP. apply Substring_refl. }
  exists (filter (loop_test c) (g_MOCK_PRODUCTS g)).
  split; [apply search_products_eval, Hne |]. split; [| exact Hall].
  intros Hnil. specialize (Hall P0 HP0 E0). rewrite Hnil in Hall. exact Hall.
Qed.

Lemma categories_then_search_witness :
  exists ms,
    eval (@search_products runtime_lifo (Some (u "Vitaminas"))) module_globals =
      [("success", VBool true);
       ("query", VStr (u "Vitaminas"));
       ("total", VInt (Z.of_nat (List.length ms)));
       ("products", VList (map VProduct ms))] /\
    ms <> [] /\
    (forall P, In P MOCK_PRODUCTS -> category P = u "Vitaminas" -> In P ms).
Proof.
  apply (@categories_then_search runtime_lifo module_globals
           (rev (py_set (map category MOCK_PRODUCTS))) (u "Vitaminas")).
  - reflexivity.
  - vm_compute. do 2 right. left. reflexivity.
  - vm_compute. discriminate.
Defined.

(** X9: the two shapes of a search response.  For every query and
    catalog the response is either the success shape, exactly when the
    query is a non-empty string, with the query echoed, no [message], and
    [total] the length of [products], which is at most the size of the
    catalog; or the failure shape, exactly when the query is absent or
    empty, with a [message], an empty [products] list and neither [query]
    nor [total]. *)
Theorem search_products_shape `{PyRuntime} (query : option str) (g : globals) :
  (exists q ms,
     query = Some q /\ q <> [] /\
     dict_get "success" (eval (search_products query) g) = Some (VBool true) /\
     dict_get "query" (eval (search_products query) g) = Some (VStr q) /\
     dict_get "message" (eval (search_products query) g) = None /\
     dict_get "products" (eval (search_products query) g)
       = Some (VList (map VProduct ms)) /\
     dict_get "total" (eval (search_products query) g)
       = Some (VInt (Z.of_nat (List.length ms))) /\
     (List.length ms <= List.length (g_MOCK_PRODUCTS g))%nat /\
     (forall P, In P ms -> In P (g_MOCK_PRODUCTS g)))
  \/
  ((query = None \/ query = Some []) /\
   dict_get "success" (eval (search_products query) g) = Some (VBool false) /\
   (exists m, m <> [] /\
      dict_get "message" (eval (search_products query) g) = Some (VStr m)) /\
   dict_get "products" (eval (search_products query) g) = Some (VList []) /\
   dict_get "query" (eval (search_products query) g) = None /\
   dict_get "total" (eval (search_products query) g) = None).
Proof.
  destruct query as [[|c q]|].
  - right. split; [right; reflexivity |]. repeat split.
    exists (u "Query parameter is required").
    split; [vm_compute; discriminate | reflexivity].
  - left. exists (c :: q), (filter (loop_test (c :: q)) (g_MOCK_PRODUCTS g)).
    rewrite search_products_eval by discriminate.
    repeat split; try discriminate.
    + apply filter_length_le.
    + intros P HP. apply filter_In in HP. apply HP.
  - right. split; [left; reflexivity |]. repeat split.
    exists (u "Query parameter is required").
    split; [vm_compute; discriminate | reflexivity].
Qed.

(** X10: every response of the three catalog handlers carries a boolean
    [success] key, for every input and catalog; the responses of [root]
    and [health] carry a [status] and a [message] and no [success] key,
    and do not depend on the catalog. *)
Theorem responses_success_key `{PyRuntime}
    (query : option str) (product_id : Z) (g g' : globals) :
  (exists b, dict_get "success" (eval (search_products query) g) = Some (VBool b)) /\
  (exists b, dict_get "success" (eval (get_product product_id) g) = Some (VBool b)) /\
  dict_get "success" (eval get_categories g) = Some (VBool true) /\
  dict_get "success" (eval root g) = None /\
  dict_get "success" (eval health g) = None /\
  dict_get "status" (eval root g) = Some (VStr (u "running")) /\
  dict_get "status" (eval health g) = Some (VStr (u "healthy")) /\
  run root g' = (eval root g, g') /\
  run health g' = (eval health g, g').
Proof.
  split; [| split; [| repeat split]].
  - destruct query as [[|c q]|];
      [exists false; reflexivity | | exists false; reflexivity].
    exists true. rewrite search_products_eval by discriminate. reflexivity.
  - unfold eval. pose proof (get_product_run product_id g) as E.
    unfold run in E. rewrite E.
    destruct (find _ _); [exists true | exists false]; reflexivity.
Qed.
